(** * THRML API server: the Ising sampling endpoints

    A shallow embedding of [src/thrml_api/app.py].  The two request
    handlers [sample_ising] and [sample_ising_stream] are translated line by
    line; the Python dictionary holding the request body is a finite map
    from field names to JSON values, an exception is a value of an error
    monad, and the [try ... except Exception] wrapper of each handler turns
    it into the 400 response the source builds.

    The handlers delegate the sampling itself to the [thrml] and [jax]
    packages, whose code is not part of the source tree.  Their functions
    ([IsingEBM], [hinton_init], [SamplingSchedule], [sample_states], the
    random keys) are modelled from the specification, sections 3 to 7, and
    are marked as such.  Floating-point arithmetic, the random stream and
    what the Python runtime decides (the class names of the library's
    exceptions, the longest list the process can allocate) are interfaces
    ([FloatOps], [PRNG], [Runtime]): every theorem holds for all their
    implementations. *)

From Stdlib Require Import ZArith QArith Qabs Lia.
From stdpp Require Import gmap strings list fin_maps.

Local Close Scope Q_scope.
Local Open Scope string_scope.

(** ** Exceptions and the error monad *)

(** The places at which the sampling library rejects a configuration. *)
Inductive config_site :=
| BiasesShape | WeightsShape | BetaShape
| BiasesLength | WeightsLength
| EmptyBlock (j : nat)
| NegativeSamples.

(** The exceptions of Python itself ([TypeError], [IndexError],
    [ValueError], [OverflowError], [MemoryError]) and the error taxonomy of
    the specification (section 7): configuration errors, by the place that
    raises them, and numeric-domain errors. *)
Inductive error_kind :=
| TypeError | IndexError | ValueError | OverflowError | MemoryError
| ConfigurationError (site : config_site)
| NumericDomainError.

(** What the embedding takes from the Python runtime and from the installed
    packages: the class names of the exceptions the sampling library raises,
    which the source reads back with [type(e).__name__], and the longest
    list the process can allocate, which is at least 1024 entries and at
    most the largest index, [2 ^ 63 - 1]. *)
Class Runtime := {
  configuration_error_class : config_site → string;
  numeric_error_class : string;
  list_capacity : Z;
  list_capacity_min : (1024 ≤ list_capacity)%Z;
  list_capacity_max : (list_capacity ≤ 9223372036854775807)%Z
}.

(** [type(e).__name__] *)
Definition kind_name `{!Runtime} (k : error_kind) : string :=
  match k with
  | TypeError => "TypeError"
  | IndexError => "IndexError"
  | ValueError => "ValueError"
  | OverflowError => "OverflowError"
  | MemoryError => "MemoryError"
  | ConfigurationError site => configuration_error_class site
  | NumericDomainError => numeric_error_class
  end.

Record exn := Exn { exn_kind : error_kind; exn_message : string }.

Inductive result (A : Type) :=
| Return (a : A)
| Raise (e : exn).
Arguments Return {A} a.
Arguments Raise {A} e.

#[global] Instance result_ret : MRet result := λ A a, Return a.
#[global] Instance result_bind : MBind result := λ A B f r,
  match r with
  | Return a => f a
  | Raise e => Raise e
  end.

Definition raise {A} (k : error_kind) (msg : string) : result A :=
  Raise (Exn k msg).

(** ** Numbers and random keys *)

(** The operations the sampler needs from the array library's float type.
    [of_Q] reads a decimal literal, [sigmoid] is the logistic function,
    [flt] the comparison [<] and [isfinite] the test for a finite value. *)
Class FloatOps (num : Type) := {
  of_Q : Q → num;
  fadd : num → num → num;
  fmul : num → num → num;
  sigmoid : num → num;
  flt : num → num → bool;
  isfinite : num → bool
}.

(** Modelled from the spec: the random stream of section 4.3, which stands
    for [jax.random.key] and [jax.random.split].  [sub_key k n i] is the
    [i]-th of the [n] sub-seeds [split(k, n)] returns; every operation is a
    pure function of its arguments. *)
Class PRNG (key num : Type) := {
  prng_key : Z → key;
  sub_key : key → nat → nat → key;
  uniform : key → num
}.

Definition split {key num : Type} `{!PRNG key num} (k : key) (n : nat) : list key :=
  sub_key k n <$> seq 0 n.

(** ** JSON values of a request body *)

(** The types the [/model/info] endpoint documents for the fields of a
    request: integers, floats and arrays of numbers. *)
Inductive json (num : Type) :=
| JInt (z : Z)
| JNum (x : num)
| JArr (xs : list num).
Arguments JInt {num} z.
Arguments JNum {num} x.
Arguments JArr {num} xs.

(** A [jnp.array]: a 0-dimensional scalar, of integer or of float type, or
    a 1-dimensional vector. *)
Inductive ndarray (num : Type) :=
| IntScalar (z : Z)
| Scalar (x : num)
| Vector (xs : list num).
Arguments IntScalar {num} z.
Arguments Scalar {num} x.
Arguments Vector {num} xs.

(** ** Python list operations used by the handlers *)

(** The list [[x] * n] when Python builds it: empty when [n] is negative *)
Definition py_repeat {A} (x : A) (n : Z) : list A := replicate (Z.to_nat n) x.

(** [sys.maxsize], the largest index, [2 ^ 63 - 1] *)
Definition ssize_max : Z := 9223372036854775807.

(** The expression [[x] * n]: [OverflowError] when the count does not fit an
    index, [MemoryError], whose message is empty, when the list is longer
    than the process can allocate. *)
Definition py_mul `{!Runtime} {A} (x : A) (n : Z) : result (list A) :=
  if ((n <? - ssize_max - 1) || (ssize_max <? n))%Z then
    raise OverflowError "cannot fit 'int' into an index-sized integer"
  else if (list_capacity <? n)%Z then raise MemoryError ""
  else mret (py_repeat x n).
Arguments py_mul : simpl never.

(** [range(n)]: empty when [n] is negative *)
Definition py_range (n : Z) : list nat := seq 0 (Z.to_nat n).

(** [l[::2]] *)
Fixpoint stride2 {A} (l : list A) : list A :=
  match l with
  | [] => []
  | x :: l' => x :: match l' with
                    | [] => []
                    | _ :: l'' => stride2 l''
                    end
  end.

(** [l[start::2]] *)
Definition slice_step2 {A} (start : nat) (l : list A) : list A :=
  stride2 (drop start l).

(** ** Nodes, blocks and joint states *)

(** A [SpinNode()] carries no value; its identity is the position at which
    the handler created it. *)
Abbreviation SpinNode := nat.

(** [Block(nodes)] *)
Abbreviation Block := (list nat).

(** A joint state: one spin per node, indexed by node position. *)
Abbreviation state := (list Z).

Definition is_spin (v : Z) : Prop := v = 1%Z ∨ v = (-1)%Z.

(** [s[i]] for a node of the model; 0 stands for a node outside the state,
    which contributes nothing to a field. *)
Definition spin_at (s : state) (i : SpinNode) : Z := default 0%Z (s !! i).

(** ** The sampling engine *)

Section Engine.
Context {num key : Type} `{!FloatOps num} `{!PRNG key num}.

Definition of_Z (z : Z) : num := of_Q (inject_Z z).

(** Modelled from the spec: [jnp.array(v)] of the [jax] package, the array
    of a field of the payload (section 6).  A number gives a 0-dimensional
    array that keeps its JSON type, integer or float; a list of numbers
    gives a 1-dimensional array. *)
Definition jnp_array (v : json num) : ndarray num :=
  match v with
  | JInt z => IntScalar z
  | JNum x => Scalar x
  | JArr xs => Vector xs
  end.

(** Modelled from the spec: [float(a)] on an array of the [jax] package, the
    beta of the metadata (section 6): a 0-dimensional array converts, a
    1-dimensional one raises [TypeError]. *)
Definition py_float (a : ndarray num) : result num :=
  match a with
  | IntScalar z => mret (of_Z z)
  | Scalar x => mret x
  | Vector _ =>
      raise TypeError "only scalar arrays can be converted to Python scalars"
  end.

(** An integer argument; any other JSON type raises [TypeError]. *)
Definition as_int (what : string) (v : json num) : result Z :=
  match v with
  | JInt z => mret z
  | _ => raise TypeError (what ++ " must be an integer")
  end.

(** The energy model of section 3: nodes, edges with their weights, one
    bias per node and the inverse temperature. *)
Record IsingEBM := {
  ebm_nodes : list SpinNode;
  ebm_edges : list (SpinNode * SpinNode);
  ebm_biases : list num;
  ebm_weights : list num;
  ebm_beta : num
}.

(** Modelled from the spec: the constructor [IsingEBM(nodes, edges, biases,
    weights, beta)] of the [thrml] package.  Section 3 gives the invariant
    [len(biases) == len(nodes)], [len(weights) == len(edges)] and a scalar
    real beta; section 4.1 says construction fails when the array lengths
    mismatch the node and edge counts, and section 7 names that failure a
    configuration error.  A beta of integer type is not a temperature and
    raises [TypeError]. *)
Definition mkIsingEBM (nodes : list SpinNode) (edges : list (SpinNode * SpinNode))
    (biases weights beta : ndarray num) : result IsingEBM :=
  match biases, weights with
  | Vector b, Vector w =>
      if negb (length b =? length nodes)%nat then
        raise (ConfigurationError BiasesLength)
          "biases must hold one value per node"
      else if negb (length w =? length edges)%nat then
        raise (ConfigurationError WeightsLength)
          "weights must hold one value per edge"
      else
        match beta with
        | Scalar β =>
            mret {| ebm_nodes := nodes; ebm_edges := edges;
                    ebm_biases := b; ebm_weights := w; ebm_beta := β |}
        | IntScalar _ => raise TypeError "beta must be a float"
        | Vector _ => raise (ConfigurationError BetaShape) "beta must be a scalar"
        end
  | Vector _, _ =>
      raise (ConfigurationError WeightsShape) "weights must be an array"
  | _, _ =>
      raise (ConfigurationError BiasesShape) "biases must be an array"
  end.

(** The sampling program: the model and its blocks. *)
Record IsingSamplingProgram := {
  prog_model : IsingEBM;
  prog_free_blocks : list Block;
  prog_clamped_blocks : list Block
}.

(** A block of no node is rejected; [j] is the position of the block. *)
Fixpoint check_blocks (j : nat) (blocks : list Block) : result unit :=
  match blocks with
  | [] => mret tt
  | [] :: _ =>
      raise (ConfigurationError (EmptyBlock j))
        "a block must hold at least one node"
  | (_ :: _) :: blocks' => check_blocks (S j) blocks'
  end.

(** Modelled from the spec: the constructor [IsingSamplingProgram(model,
    free_blocks, clamped_blocks)] of the [thrml] package.  Malformed
    configuration is caught at construction (section 4.5); a block is a
    group of nodes that are resampled together (sections 3 and 4.5), and a
    free block that holds no node is rejected. *)
Definition mkIsingSamplingProgram (model : IsingEBM)
    (free_blocks clamped_blocks : list Block) : result IsingSamplingProgram :=
  _ ← check_blocks 0 free_blocks;
  mret {| prog_model := model; prog_free_blocks := free_blocks;
          prog_clamped_blocks := clamped_blocks |}.

(** The schedule of sections 3 and 4.6: warmup sweeps, recorded samples,
    sweeps per sample. *)
Record SamplingSchedule := {
  sched_n_warmup : Z;
  sched_n_samples : Z;
  sched_steps_per_sample : Z
}.

(** Modelled from the spec: the constructor [SamplingSchedule(n_warmup,
    n_samples, steps_per_sample)] of the [thrml] package: three integers,
    with the validation of section 3 that the recorded sample count is not
    negative. *)
Definition mkSamplingSchedule (n_warmup n_samples steps_per_sample : json num)
    : result SamplingSchedule :=
  w ← as_int "n_warmup" n_warmup;
  n ← as_int "n_samples" n_samples;
  t ← as_int "steps_per_sample" steps_per_sample;
  if (n <? 0)%Z then
    raise (ConfigurationError NegativeSamples)
      "n_samples must not be negative"
  else mret {| sched_n_warmup := w; sched_n_samples := n;
               sched_steps_per_sample := t |}.

(** Modelled from the spec: [jax.random.key(seed)], a key from one integer
    seed (section 4.3). *)
Definition random_key (seed : json num) : result key :=
  z ← as_int "seed" seed;
  mret (prng_key z).

(** Modelled from the spec: the local field of section 4.1,
    [h = β * (b_target + Σ_neighbours w_edge * s_neighbour)]. *)
Definition neighbour_term (s : state) (i : SpinNode)
    (ew : SpinNode * SpinNode * num) : option num :=
  let '(a, b, w) := ew in
  if decide (a = i) then Some (fmul w (of_Z (spin_at s b)))
  else if decide (b = i) then Some (fmul w (of_Z (spin_at s a)))
  else None.

Definition local_field (m : IsingEBM) (s : state) (i : SpinNode) : num :=
  let b := default (of_Q 0) (ebm_biases m !! i) in
  let terms := omap (neighbour_term s i) (zip (ebm_edges m) (ebm_weights m)) in
  fmul (ebm_beta m) (foldl fadd b terms).

(** Modelled from the spec: the per-node resampling of section 4.5: the
    node is +1 if [u < sigmoid(2h)], else -1. *)
Definition resample (h u : num) : Z :=
  if flt u (sigmoid (fmul (of_Z 2) h)) then 1%Z else (-1)%Z.

(** Modelled from the spec: the state initializer of section 4.4
    ([hinton_init] of the [thrml] package): every node starts at the spin
    its bias favours, and a draw from its own sub-seed breaks the tie of a
    zero bias. *)
Definition init_spin (k : key) (b : num) : Z :=
  if flt (of_Q 0) b then 1%Z
  else if flt b (of_Q 0) then (-1)%Z
  else if flt (uniform k) (of_Q (1 # 2)) then 1%Z else (-1)%Z.

Definition hinton_init (k_init : key) (m : IsingEBM)
    (free_blocks : list Block) : state :=
  let n := length (ebm_biases m) in
  imap (λ i b, init_spin (sub_key k_init n i) b) (ebm_biases m).
(** Modelled from the spec: one block update of section 4.5.  Every node of
    the block is resampled from the field the state [s] gives it, the state
    being the one before any write of this block; a field that is not finite
    is a numeric-domain error (sections 4.5 and 7).  [p] is the position of
    the node in the block, of [len] nodes, and selects its sub-seed. *)
Fixpoint resample_nodes (k : key) (m : IsingEBM) (s : state) (len p : nat)
    (blk : Block) : result (list (SpinNode * Z)) :=
  match blk with
  | [] => mret []
  | i :: blk' =>
      let h := local_field m s i in
      if isfinite h then
        rest ← resample_nodes k m s len (S p) blk';
        mret ((i, resample h (uniform (sub_key k len p))) :: rest)
      else raise NumericDomainError "local field is not finite"
  end.

(** The new values of a block are written back together. *)
Definition write_back (s : state) (new : list (SpinNode * Z)) : state :=
  foldl (λ s' iv, <[iv.1 := iv.2]> s') s new.

Definition update_block (k : key) (m : IsingEBM) (blk : Block) (s : state)
    : result state :=
  new ← resample_nodes k m s (length blk) 0 blk;
  mret (write_back s new).

(** Modelled from the spec: one sweep of section 4.5, a pass over all the
    blocks in their fixed order; block [j] of [nb] draws from sub-seed [j]. *)
Fixpoint sweep_blocks (k : key) (m : IsingEBM) (nb j : nat)
    (blocks : list Block) (s : state) : result state :=
  match blocks with
  | [] => mret s
  | blk :: blocks' =>
      s' ← update_block (sub_key k nb j) m blk s;
      sweep_blocks k m nb (S j) blocks' s'
  end.

(** The chain: the position in the random stream and the joint state. *)
Definition sweep (p : IsingSamplingProgram) (c : key * state)
    : result (key * state) :=
  let k_next := sub_key c.1 2 0 in
  let k_sweep := sub_key c.1 2 1 in
  s' ← sweep_blocks k_sweep (prog_model p) (length (prog_free_blocks p)) 0
         (prog_free_blocks p) c.2;
  mret (k_next, s').

Fixpoint sweeps (p : IsingSamplingProgram) (n : nat) (c : key * state)
    : result (key * state) :=
  match n with
  | O => mret c
  | S n' => c' ← sweep p c; sweeps p n' c'
  end.

(** The snapshot of the observed blocks: the values of their nodes. *)
Definition observe (nodes_to_sample : list Block) (s : state) : state :=
  spin_at s <$> concat nodes_to_sample.

(** Modelled from the spec: the recording loop of section 4.5: repeat
    [n_samples] times: [steps] sweeps, then append a snapshot.  The chain it
    ends in comes with the recorded states. *)
Fixpoint record_samples (p : IsingSamplingProgram) (obs : list Block)
    (n_samples steps : nat) (c : key * state)
    : result (list state * (key * state)) :=
  match n_samples with
  | O => mret ([], c)
  | S n' =>
      c' ← sweeps p steps c;
      r ← record_samples p obs n' steps c';
      mret (observe obs c'.2 :: r.1, r.2)
  end.

(** Modelled from the spec: the schedule execution of section 4.5: [warmup]
    sweeps that produce no output, then the recording loop.  A [range] over
    a negative count is empty. *)
Definition run_schedule (k_samp : key) (p : IsingSamplingProgram)
    (sch : SamplingSchedule) (init_state : state) (obs : list Block)
    : result (list state * (key * state)) :=
  c ← sweeps p (Z.to_nat (sched_n_warmup sch)) (k_samp, init_state);
  record_samples p obs (Z.to_nat (sched_n_samples sch))
    (Z.to_nat (sched_steps_per_sample sch)) c.

(** Modelled from the spec: [sample_states(key, program, schedule,
    init_state, clamped_state, nodes_to_sample)] of the [thrml] package: the
    ordered sequence of recorded joint states (section 6). *)
Definition sample_states (k_samp : key) (p : IsingSamplingProgram)
    (sch : SamplingSchedule) (init_state : state) (clamped : list state)
    (nodes_to_sample : list Block) : result (list state) :=
  r ← run_schedule k_samp p sch init_state nodes_to_sample;
  mret r.1.
End Engine.

Arguments IsingEBM num : clear implicits.
Arguments IsingSamplingProgram num : clear implicits.
Arguments mkIsingSamplingProgram : simpl never.

(** ** The request handlers *)

(** The body of a successful [/sample/ising] response. *)
Record model_info (num : Type) := {
  info_n_nodes : Z;
  info_beta : num;
  info_n_edges : nat
}.
Arguments info_n_nodes {num} _.
Arguments info_beta {num} _.
Arguments info_n_edges {num} _.

Record ising_body (num : Type) := {
  samples : list state;
  final_state : option state;
  n_samples : nat;
  info : model_info num
}.
Arguments samples {num} _.
Arguments final_state {num} _.
Arguments n_samples {num} _.
Arguments info {num} _.

(** The body of a successful [/sample/ising/stream] response. *)
Record stream_body := {
  stream_sample : option state;
  stream_state : option state
}.

(** A response: [success: True] with its body, status 200, or
    [success: False] with [error] and [error_type], status 400. *)
Inductive response (A : Type) :=
| Http200 (body : A)
| Http400 (error : string) (error_type : string).
Arguments Http200 {A} body.
Arguments Http400 {A} error error_type.

(** [try: ... except Exception as e: ...] *)
Definition try_except `{!Runtime} {A} (r : result A) : response A :=
  match r with
  | Return body => Http200 body
  | Raise e => Http400 (exn_message e) (kind_name (exn_kind e))
  end.

(** [l[i]] for a non-negative index *)
Definition py_index {A} (l : list A) (i : nat) : result A :=
  match l !! i with
  | Some x => mret x
  | None => raise IndexError "list index out of range"
  end.

Section Handlers.
Context {num key : Type} `{!FloatOps num} `{!PRNG key num} {runtime : Runtime}.

(** [data.get(k, dflt)] *)
Definition dict_get (data : gmap string (json num)) (k : string)
    (dflt : json num) : json num :=
  default dflt (data !! k).

(** [[SpinNode() for _ in range(n_nodes)]]: the node created at position
    [i] is node [i]. *)
Definition make_nodes (n_nodes : Z) : list SpinNode := py_range n_nodes.

(** [[(nodes[i], nodes[i+1]) for i in range(n_nodes - 1)]] *)
Definition make_edges (nodes : list SpinNode) (n_nodes : Z)
    : result (list (SpinNode * SpinNode)) :=
  mapM (λ i, a ← py_index nodes i; b ← py_index nodes (i + 1); mret (a, b))
       (py_range (n_nodes - 1)).

(** [[Block(nodes[::2]), Block(nodes[1::2])]] *)
Definition make_free_blocks (nodes : list SpinNode) : list Block :=
  [slice_step2 0 nodes; slice_step2 1 nodes].

(** The model, the program and the initial chain, built the same way by both
    handlers (lines 42-69 and 116-135 of the source). *)
Record setup := {
  su_n_nodes : Z;
  su_nodes : list SpinNode;
  su_edges : list (SpinNode * SpinNode);
  su_beta : ndarray num;
  su_program : IsingSamplingProgram num;
  su_k_samp : key;
  su_init_state : state
}.

Definition build (data : gmap string (json num)) : result setup :=
  let n_nodes := dict_get data "n_nodes" (JInt 5) in
  n ← as_int "n_nodes" n_nodes;
  default_weights ← py_mul (of_Q (1 # 2)) (n - 1);
  let weights := jnp_array (dict_get data "weights" (JArr default_weights)) in
  default_biases ← py_mul (of_Q 0) n;
  let biases := jnp_array (dict_get data "biases" (JArr default_biases)) in
  let beta := jnp_array (dict_get data "beta" (JNum (of_Q 1))) in
  let random_key_ := dict_get data "random_key" (JInt 0) in
  let nodes := make_nodes n in
  edges ← make_edges nodes n;
  model ← mkIsingEBM nodes edges biases weights beta;
  let free_blocks := make_free_blocks nodes in
  program ← mkIsingSamplingProgram model free_blocks [];
  k ← random_key random_key_;
  match split k 2 with
  | [k_init; k_samp] =>
      let init_state := hinton_init k_init model free_blocks in
      mret {| su_n_nodes := n; su_nodes := nodes; su_edges := edges;
              su_beta := beta; su_program := program; su_k_samp := k_samp;
              su_init_state := init_state |}
  | _ => raise ValueError "wrong number of values to unpack"
  end.

(** [sample_ising], lines 38-98 of the source, inside its [try]. *)
Definition sample_ising_try (data : gmap string (json num))
    : result (ising_body num) :=
  let n_warmup := dict_get data "n_warmup" (JInt 100) in
  let n_samples_ := dict_get data "n_samples" (JInt 1000) in
  let steps_per_sample := dict_get data "steps_per_sample" (JInt 2) in
  su ← build data;
  schedule ← mkSamplingSchedule n_warmup n_samples_ steps_per_sample;
  samples_ ← sample_states (su_k_samp su) (su_program su) schedule
               (su_init_state su) [] [su_nodes su];
  let final_state_ := last samples_ in
  beta ← py_float (su_beta su);
  mret {| samples := samples_;
          final_state := final_state_;
          n_samples := length samples_;
          info := {| info_n_nodes := su_n_nodes su;
                     info_beta := beta;
                     info_n_edges := length (su_edges su) |} |}.

Definition sample_ising (data : gmap string (json num))
    : response (ising_body num) :=
  try_except (sample_ising_try data).

(** [sample_ising_stream], lines 113-146 of the source, inside its [try]. *)
Definition sample_ising_stream_try (data : gmap string (json num))
    : result stream_body :=
  let steps_per_sample := dict_get data "steps_per_sample" (JInt 2) in
  su ← build data;
  schedule ← mkSamplingSchedule (JInt 0) (JInt 1) steps_per_sample;
  samples_ ← sample_states (su_k_samp su) (su_program su) schedule
               (su_init_state su) [] [su_nodes su];
  mret {| stream_sample := head samples_;
          stream_state := last samples_ |}.

Definition sample_ising_stream (data : gmap string (json num))
    : response stream_body :=
  try_except (sample_ising_stream_try data).
End Handlers.

Arguments setup num key : clear implicits.

(** ** The server *)

Section Server.
Context {num key : Type} `{!FloatOps num} `{!PRNG key num} {runtime : Runtime}.

Inductive request :=
| GetHealth
| PostSampleIsing (data : gmap string (json num))
| PostSampleIsingStream (data : gmap string (json num))
| GetModelInfo.

Inductive reply :=
| HealthReply (status message : string)
| IsingReply (r : response (ising_body num))
| StreamReply (r : response stream_body)
| ModelInfoReply (models : list string)
    (parameters : list (string * list (string * string))).

(** The route table of the application. *)
Definition handle (r : request) : reply :=
  match r with
  | GetHealth => HealthReply "ok" "THRML API is running"
  | PostSampleIsing data => IsingReply (sample_ising data)
  | PostSampleIsingStream data => StreamReply (sample_ising_stream data)
  | GetModelInfo =>
      ModelInfoReply ["ising"]
        [("ising",
          [("n_nodes", "int - Number of nodes in the chain");
           ("weights", "array - Edge weights (length: n_nodes - 1)");
           ("biases", "array - Node biases (length: n_nodes)");
           ("beta", "float - Temperature parameter (1/T)");
           ("n_warmup", "int - Number of warmup steps");
           ("n_samples", "int - Number of samples to generate");
           ("steps_per_sample", "int - Gibbs steps per sample")])]
  end.

(** The recorded states a response returns: a failure response returns
    none. *)
Definition recorded_states (r : response (ising_body num)) : list state :=
  match r with
  | Http200 b => samples b
  | Http400 _ _ => []
  end.

(** What a [/sample/ising] response shows through the stream endpoint: the
    first and the last recorded state. *)
Definition stream_view (r : response (ising_body num))
    : response stream_body :=
  match r with
  | Http200 b => Http200 {| stream_sample := head (samples b);
                            stream_state := last (samples b) |}
  | Http400 e t => Http400 e t
  end.

(** Two request bodies agree on the fields named by [keys]. *)
Definition agree_on (keys : list string) (d1 d2 : gmap string (json num))
    : Prop :=
  Forall (λ k, d1 !! k = d2 !! k) keys.
End Server.

Arguments request num : clear implicits.
Arguments reply num : clear implicits.

(** The fields [sample_ising] reads, and those [sample_ising_stream] reads. *)
Definition ising_fields : list string :=
  ["n_nodes"; "weights"; "biases"; "beta"; "n_warmup"; "n_samples";
   "steps_per_sample"; "random_key"].

Definition stream_fields : list string :=
  ["n_nodes"; "weights"; "biases"; "beta"; "steps_per_sample"; "random_key"].


(** ** Vocabulary of the statements *)

(** A joint state of [n] nodes: one spin, +1 or -1, per node. *)
Definition valid_state (n : nat) (s : state) : Prop :=
  length s = n ∧ Forall is_spin s.

(** The edges of a chain of [n_nodes] nodes: node [i] with node [i + 1]. *)
Definition chain_edges (n_nodes : Z) : list (SpinNode * SpinNode) :=
  (λ i, (i, i + 1)) <$> py_range (n_nodes - 1).

(** The request body describes a chain: [n_nodes] is the integer [n], and
    the weights and the biases (given, or the defaults of the handler) are
    arrays with one value per edge and one value per node. *)
Definition describes_chain {num : Type} `{!FloatOps num}
    (data : gmap string (json num)) (n : Z) : Prop :=
  dict_get data "n_nodes" (JInt 5) = JInt n ∧
  ∃ w b,
    dict_get data "weights" (JArr (py_repeat (of_Q (1 # 2)) (n - 1))) = JArr w ∧
    dict_get data "biases" (JArr (py_repeat (of_Q 0) n)) = JArr b ∧
    length w = Z.to_nat (n - 1) ∧ length b = Z.to_nat n.

(** The scenario of section 8 of the specification, and the model the
    handler builds for it. *)
Definition scenario {num : Type} `{!FloatOps num} : gmap string (json num) :=
  <["n_nodes" := JInt 3]> (<["weights" := JArr [of_Q 1; of_Q 1]]>
  (<["biases" := JArr [of_Q 0; of_Q 0; of_Q 0]]> (<["beta" := JNum (of_Q 1)]>
  (<["n_warmup" := JInt 50]> (<["n_samples" := JInt 5]>
  (<["steps_per_sample" := JInt 1]> (<["random_key" := JInt 42]> ∅))))))).

Definition scenario_model {num : Type} `{!FloatOps num} : IsingEBM num :=
  {| ebm_nodes := [0; 1; 2];
     ebm_edges := [(0, 1); (1, 2)];
     ebm_biases := [of_Q 0; of_Q 0; of_Q 0];
     ebm_weights := [of_Q 1; of_Q 1];
     ebm_beta := of_Q 1 |}.

(** No local field of the model overflows: the field of every node is
    finite in every joint state of the model. *)
Definition fields_finite {num : Type} `{!FloatOps num} (m : IsingEBM num)
    : Prop :=
  ∀ s i, valid_state (length (ebm_nodes m)) s → i ∈ ebm_nodes m →
         isfinite (local_field m s i) = true.

(** ** An executable instance

    Exact rational arithmetic, with the rational function
    [(1 + x / (1 + |x|)) / 2] in the place of the logistic function, and a
    linear congruential random stream.  It runs the handlers on concrete
    request bodies. *)
Module Exact.

Definition Qltb (x y : Q) : bool := negb (Qle_bool y x).

Definition Qsigmoid (x : Q) : Q :=
  Qred ((1 + x / (1 + Qabs x)) / (2 # 1))%Q.

#[global] Instance Q_float : FloatOps Q := {|
  of_Q := Qred;
  fadd x y := Qred (x + y)%Q;
  fmul x y := Qred (x * y)%Q;
  sigmoid := Qsigmoid;
  flt := Qltb;
  isfinite _ := true
|}.

#[global] Instance cpython : Runtime := {|
  configuration_error_class site :=
    match site with
    | EmptyBlock _ => "ValueError"
    | _ => "RuntimeError"
    end;
  numeric_error_class := "FloatingPointError";
  list_capacity := 2 ^ 60 - 1;
  list_capacity_min := Zle_bool_imp_le 1024 (2 ^ 60 - 1) eq_refl;
  list_capacity_max :=
    Zle_bool_imp_le (2 ^ 60 - 1) 9223372036854775807 eq_refl
|}.

Definition lcg (k : Z) : Z := ((k * 1103515245 + 12345) mod 2147483648)%Z.

#[global] Instance Z_stream : PRNG Z Q := {|
  prng_key z := lcg z;
  sub_key k n i := lcg (k + Z.of_nat (S i) * 2654435761 + Z.of_nat n)%Z;
  uniform k := Qred (Qmake (k / 65536 mod 1000)%Z 1000)
|}.

(** The scenario asking for no sample, and for no sweep between samples. *)
Definition scenario_no_samples : gmap string (json Q) :=
  <["n_samples" := JInt 0]> scenario.

Definition scenario_no_steps : gmap string (json Q) :=
  <["steps_per_sample" := JInt 0]> scenario.


(** A chain of two nodes, every other field left out. *)
Definition two_nodes : gmap string (json Q) := <["n_nodes" := JInt 2]> ∅.

(** The scenario with a float for its node count. *)
Definition scenario_float_nodes : gmap string (json Q) :=
  <["n_nodes" := JNum 3%Q]> scenario.

End Exact.

(** ** Properties of the list operations and of the error monad *)

Local Open Scope list_scope.

Lemma bind_Return_inv {A B} (r : result A) (f : A → result B) (b : B) :
  r ≫= f = Return b → ∃ a, r = Return a ∧ f a = Return b.
Proof. destruct r as [a|e]; cbn; intros H; [exists a; split; [reflexivity|exact H] | inversion H]. Qed.

(** Splits a successful sequence of binds into its steps. *)
Ltac inv_bind H :=
  let a := fresh "a" in
  let Ha := fresh "Ha" in
  apply bind_Return_inv in H as (a & Ha & H); simpl in H.

Lemma mapM_Return {A B} (f : A → result B) (g : A → B) (l : list A) :
  Forall (λ x, f x = Return (g x)) l → mapM f l = Return (g <$> l).
Proof.
  induction 1 as [|x l Hx _ IH]; [done|].
  cbn [mapM]. rewrite Hx. cbn. rewrite IH. done.
Qed.

Lemma length_py_range n : length (py_range n) = Z.to_nat n.
Proof. apply length_seq. Qed.

Lemma elem_of_py_range n i : i ∈ py_range n ↔ i < Z.to_nat n.
Proof. unfold py_range. rewrite elem_of_seq. lia. Qed.

(** Induction two elements at a time, the way [stride2] recurses. *)
Lemma list_ind2 {A} (P : list A → Prop) :
  P [] → (∀ x, P [x]) → (∀ x y l, P l → P (x :: y :: l)) → ∀ l, P l.
Proof.
  intros H0 H1 H2 l.
  assert (P l ∧ ∀ x, P (x :: l)) as [? _]; [|done].
  induction l as [|y l [IH1 IH2]]; split; auto.
Qed.

Lemma stride2_cons2 {A} (x y : A) l : stride2 (x :: y :: l) = x :: stride2 l.
Proof. done. Qed.

Lemma stride2_tail {A} (x : A) l : stride2 (x :: l) = x :: stride2 (drop 1 l).
Proof. destruct l; done. Qed.

Lemma stride2_interleave {A} (l : list A) :
  stride2 l ++ stride2 (drop 1 l) ≡ₚ l.
Proof.
  induction l as [|x|x y l IH] using list_ind2; [done..|].
  rewrite stride2_cons2. cbn [drop]. rewrite stride2_tail.
  constructor. etrans; [symmetry; apply Permutation_middle|].
  constructor. done.
Qed.

Lemma stride2_seq a n x :
  x ∈ stride2 (seq a n) ↔ (a ≤ x < a + n) ∧ Nat.even (x - a) = true.
Proof.
  revert a. induction n as [n IH] using lt_wf_ind. intros a.
  destruct n as [|[|n]].
  - cbn. rewrite elem_of_nil. lia.
  - cbn. rewrite list_elem_of_singleton. split.
    + intros ->. rewrite Nat.sub_diag. split; [lia | done].
    + intros [? _]. lia.
  - cbn [seq]. rewrite stride2_cons2, elem_of_cons, (IH n) by lia.
    split.
    + intros [->|[? Hev]].
      * rewrite Nat.sub_diag. split; [lia | done].
      * split; [lia|]. replace (x - a) with (S (S (x - S (S a)))) by lia. done.
    + intros [? Hev]. destruct (decide (x = a)) as [|Hne]; [by left | right].
      destruct (decide (x = S a)) as [->|Hne'].
      * replace (S a - a) with 1 in Hev by lia. done.
      * split; [lia|]. replace (x - a) with (S (S (x - S (S a)))) in Hev by lia.
        done.
Qed.

(** ** Properties of the engine *)

Section EngineFacts.
Context {num key : Type} `{!FloatOps num} `{!PRNG key num} {runtime : Runtime}.
Implicit Types (m : IsingEBM num) (p : IsingSamplingProgram num) (s : state)
  (c : key * state) (blk : Block) (k : key).

Lemma resample_is_spin (h u : num) : is_spin (resample h u).
Proof. unfold resample, is_spin. destruct (flt _ _); auto. Qed.

Lemma init_spin_is_spin k (b : num) : is_spin (init_spin k b).
Proof. unfold init_spin, is_spin. repeat destruct (flt _ _); auto. Qed.

Lemma hinton_init_valid k m fb :
  valid_state (length (ebm_biases m)) (hinton_init k m fb).
Proof.
  unfold hinton_init. split; [apply length_imap|].
  apply Forall_lookup. intros i v Hv.
  rewrite list_lookup_imap in Hv.
  destruct (ebm_biases m !! i) as [b|]; [|done].
  injection Hv as <-. apply init_spin_is_spin.
Qed.

Lemma resample_nodes_spins k m s len q blk new :
  resample_nodes k m s len q blk = Return new →
  Forall (λ iv, is_spin iv.2) new.
Proof.
  revert q new. induction blk as [|i blk IH]; intros q new H; cbn in H.
  - injection H as <-. constructor.
  - destruct (isfinite _); [|done].
    inv_bind H. injection H as <-.
    constructor; [apply resample_is_spin | eauto].
Qed.

Lemma resample_nodes_total k m s len q blk :
  Forall (λ i, isfinite (local_field m s i) = true) blk →
  ∃ new, resample_nodes k m s len q blk = Return new.
Proof.
  intros Hall. revert q. induction Hall as [|i blk Hi _ IH]; intros q; cbn.
  - by eexists.
  - rewrite Hi. destruct (IH (S q)) as [rest ->]. by eexists.
Qed.

Lemma write_back_valid n s (new : list (SpinNode * Z)) :
  valid_state n s → Forall (λ iv, is_spin iv.2) new →
  valid_state n (write_back s new).
Proof.
  unfold write_back. intros Hs Hnew. revert s Hs.
  induction Hnew as [|[i v] new Hv _ IH]; intros s [Hlen Hsp]; [done|].
  cbn. apply IH. split.
  - by rewrite length_insert.
  - by apply Forall_insert.
Qed.

Lemma update_block_valid n k m blk s s' :
  valid_state n s → update_block k m blk s = Return s' → valid_state n s'.
Proof.
  intros Hs H. unfold update_block in H. inv_bind H. injection H as <-.
  eauto using write_back_valid, resample_nodes_spins.
Qed.

Lemma sweep_blocks_valid n k m nb j blocks s s' :
  valid_state n s → sweep_blocks k m nb j blocks s = Return s' →
  valid_state n s'.
Proof.
  revert j s. induction blocks as [|blk blocks IH]; intros j s Hs H; cbn in H.
  - by injection H as <-.
  - inv_bind H. eauto using update_block_valid.
Qed.

Lemma sweep_valid n p c c' :
  valid_state n c.2 → sweep p c = Return c' → valid_state n c'.2.
Proof.
  intros Hs H. unfold sweep in H. inv_bind H. injection H as <-.
  eauto using sweep_blocks_valid.
Qed.

Lemma sweeps_valid n p t c c' :
  valid_state n c.2 → sweeps p t c = Return c' → valid_state n c'.2.
Proof.
  revert c. induction t as [|t IH]; intros c Hs H; cbn in H.
  - by injection H as <-.
  - inv_bind H. eauto using sweep_valid.
Qed.
(** A sweep returns when no field overflows. *)
Lemma update_block_total k m blk s :
  fields_finite m → valid_state (length (ebm_nodes m)) s →
  Forall (λ i, i ∈ ebm_nodes m) blk →
  ∃ s', update_block k m blk s = Return s'.
Proof.
  intros Hfin Hs Hblk. unfold update_block.
  destruct (resample_nodes_total k m s (length blk) 0 blk) as [new ->].
  - eapply Forall_impl; [exact Hblk|]. intros i Hi. by apply Hfin.
  - by eexists.
Qed.

Lemma sweep_blocks_total k m nb j blocks s :
  fields_finite m → valid_state (length (ebm_nodes m)) s →
  Forall (Forall (λ i, i ∈ ebm_nodes m)) blocks →
  ∃ s', sweep_blocks k m nb j blocks s = Return s'.
Proof.
  intros Hfin Hs Hblocks. revert j s Hs.
  induction Hblocks as [|blk blocks Hblk _ IH]; intros j s Hs; cbn.
  - by eexists.
  - destruct (update_block_total (sub_key k nb j) m blk s) as [s1 Hs1]; [done..|].
    rewrite Hs1. cbn. apply IH. eauto using update_block_valid.
Qed.

Lemma sweeps_total p t c :
  fields_finite (prog_model p) →
  Forall (Forall (λ i, i ∈ ebm_nodes (prog_model p))) (prog_free_blocks p) →
  valid_state (length (ebm_nodes (prog_model p))) c.2 →
  ∃ c', sweeps p t c = Return c'.
Proof.
  intros Hfin Hblocks. revert c. induction t as [|t IH]; intros c Hs; cbn.
  - by eexists.
  - unfold sweep at 1.
    destruct (sweep_blocks_total (sub_key c.1 2 1) (prog_model p)
                (length (prog_free_blocks p)) 0 (prog_free_blocks p) c.2)
      as [s1 Hs1]; [done..|].
    rewrite Hs1. cbn. apply IH. cbn. eauto using sweep_blocks_valid.
Qed.

(** The recording loop: [N] snapshots, each of a joint state of the chain,
    the last one of the state the chain ends in. *)
Lemma record_samples_spec n p obs N steps c l c' :
  valid_state n c.2 →
  record_samples p obs N steps c = Return (l, c') →
  length l = N ∧ valid_state n c'.2 ∧
  Forall (λ s, ∃ s0, valid_state n s0 ∧ s = observe obs s0) l ∧
  (N ≠ 0 → last l = Some (observe obs c'.2)).
Proof.
  revert c l. induction N as [|N IH]; intros c l Hs H; cbn in H.
  - injection H as <- <-. done.
  - inv_bind H. inv_bind H. destruct a0 as [l0 c0]. injection H as <- <-.
    assert (valid_state n a.2) as Ha1 by eauto using sweeps_valid.
    destruct (IH _ _ Ha1 Ha0) as (Hlen & Hc' & Hall & Hlast).
    split_and!; [by cbn; f_equal | done | constructor; eauto |].
    intros _. destruct N as [|N].
    + cbn in Ha0. by injection Ha0 as <- <-.
    + rewrite last_cons, Hlast by done. done.
Qed.

Lemma record_samples_total p obs N steps c :
  fields_finite (prog_model p) →
  Forall (Forall (λ i, i ∈ ebm_nodes (prog_model p))) (prog_free_blocks p) →
  valid_state (length (ebm_nodes (prog_model p))) c.2 →
  ∃ r, record_samples p obs N steps c = Return r.
Proof.
  intros Hfin Hblocks. revert c. induction N as [|N IH]; intros c Hs; cbn.
  - by eexists.
  - destruct (sweeps_total p steps c) as [c1 Hc1]; [done..|].
    rewrite Hc1. cbn.
    destruct (IH c1) as [r ->]; [eauto using sweeps_valid|]. by eexists.
Qed.

(** With no sweep between two snapshots every snapshot is the same. *)
Lemma record_samples_steps0 p obs N c :
  record_samples p obs N 0 c = Return (replicate N (observe obs c.2), c).
Proof. induction N as [|N IH]; cbn; [done|]. by rewrite IH. Qed.

(** Observing the one block of all the nodes gives the whole state. *)
Lemma observe_all n s : length s = n → observe [seq 0 n] s = s.
Proof.
  intros <-. unfold observe. cbn. rewrite app_nil_r.
  apply list_eq. intros i. rewrite list_lookup_fmap.
  destruct (decide (i < length s)) as [Hi|Hi].
  - rewrite lookup_seq_lt by done. cbn. unfold spin_at.
    destruct (lookup_lt_is_Some_2 s i Hi) as [v ->]. done.
  - rewrite lookup_seq_ge, lookup_ge_None_2 by lia. done.
Qed.
End EngineFacts.

(** ** Properties of the handlers' setup *)

Section SetupFacts.
Context {num key : Type} `{!FloatOps num} `{!PRNG key num} {runtime : Runtime}.
Implicit Types (data : gmap string (json num)) (su : setup num key).

Lemma length_make_nodes n : length (make_nodes n) = Z.to_nat n.
Proof. apply length_py_range. Qed.

Lemma length_chain_edges n : length (chain_edges n) = Z.to_nat (n - 1).
Proof. unfold chain_edges. by rewrite length_fmap, length_py_range. Qed.

(** The comprehension building the edges never indexes out of range. *)
Lemma make_edges_chain n : make_edges (make_nodes n) n = Return (chain_edges n).
Proof.
  unfold make_edges, chain_edges. apply mapM_Return.
  apply Forall_forall. intros i Hi%elem_of_py_range.
  unfold py_index, make_nodes, py_range.
  rewrite !lookup_seq_lt by lia. done.
Qed.

Lemma stride2_subseteq {A} (l : list A) x : x ∈ stride2 l → x ∈ l.
Proof.
  intros Hx. rewrite <- (stride2_interleave l). apply elem_of_app. by left.
Qed.

Lemma free_blocks_in_nodes (nodes : list SpinNode) :
  Forall (Forall (λ i, i ∈ nodes)) (make_free_blocks nodes).
Proof.
  unfold make_free_blocks, slice_step2.
  repeat constructor; apply Forall_forall; intros i Hi.
  - by apply stride2_subseteq.
  - rewrite <- (stride2_interleave nodes). apply elem_of_app. by right.
Qed.

Lemma mkIsingEBM_Return nodes edges (B W Be : ndarray num) m :
  mkIsingEBM nodes edges B W Be = Return m →
  ∃ b w β, B = Vector b ∧ W = Vector w ∧ Be = Scalar β ∧
    length b = length nodes ∧ length w = length edges ∧
    m = {| ebm_nodes := nodes; ebm_edges := edges; ebm_biases := b;
           ebm_weights := w; ebm_beta := β |}.
Proof.
  unfold mkIsingEBM. destruct B as [?|?|b], W as [?|?|w]; try done.
  destruct (length b =? length nodes)%nat eqn:Hb; [|done].
  destruct (length w =? length edges)%nat eqn:Hw; [|done].
  destruct Be as [?|β|?]; try done.
  cbn. intros [= <-]. apply Nat.eqb_eq in Hb, Hw. by exists b, w, β.
Qed.


Lemma py_mul_Return {A} (x : A) n l :
  py_mul x n = Return l → l = py_repeat x n ∧ (n ≤ list_capacity)%Z.
Proof.
  unfold py_mul. destruct (_ || _); [done|].
  destruct (list_capacity <? n)%Z eqn:Hcap; [done|].
  intros [= <-]. apply Z.ltb_ge in Hcap. done.
Qed.

Lemma py_mul_fits {A} (x : A) n :
  (- ssize_max - 1 ≤ n ≤ list_capacity)%Z →
  py_mul x n = Return (py_repeat x n).
Proof.
  intros Hfit. pose proof list_capacity_max as Hmax. unfold py_mul.
  destruct (n <? - ssize_max - 1)%Z eqn:H1;
    [apply Z.ltb_lt in H1; unfold ssize_max in *; lia|].
  destruct (ssize_max <? n)%Z eqn:H2;
    [apply Z.ltb_lt in H2; unfold ssize_max in *; lia|].
  destruct (list_capacity <? n)%Z eqn:H3; [apply Z.ltb_lt in H3; lia|].
  done.
Qed.

Lemma py_mul_small {A} (x : A) n :
  (- 1024 ≤ n ≤ 1024)%Z → py_mul x n = Return (py_repeat x n).
Proof.
  intros Hn. pose proof list_capacity_min. apply py_mul_fits.
  unfold ssize_max. lia.
Qed.

Lemma check_blocks_Return j (blocks : list Block) :
  check_blocks j blocks = Return tt ↔ Forall (λ blk, blk ≠ []) blocks.
Proof.
  revert j. induction blocks as [|[|i blk] blocks IH]; intros j; cbn.
  - split; [constructor | done].
  - split; [done|]. intros Hall. by inversion Hall.
  - rewrite IH. split; [by constructor|]. intros Hall. by inversion Hall.
Qed.

Lemma mkIsingSamplingProgram_Return (m : IsingEBM num) fb cb p :
  mkIsingSamplingProgram m fb cb = Return p →
  p = {| prog_model := m; prog_free_blocks := fb; prog_clamped_blocks := cb |} ∧
  Forall (λ blk, blk ≠ []) fb.
Proof.
  unfold mkIsingSamplingProgram. intros H. inv_bind H. destruct a.
  apply check_blocks_Return in Ha. by injection H as <-.
Qed.

(** The two free blocks of a chain hold a node each exactly when the chain
    has two nodes or more. *)
Lemma check_free_blocks_chain n :
  (2 ≤ n)%Z →
  check_blocks 0 (make_free_blocks (make_nodes n)) = Return tt.
Proof.
  intros Hn. unfold make_nodes, py_range.
  destruct (Z.to_nat n) as [|[|k]] eqn:Hk; [lia..|]. done.
Qed.


(** The facts a successful setup establishes. *)
Lemma build_Return data su :
  build data = Return su →
  ∃ n β,
    dict_get data "n_nodes" (JInt 5) = JInt n ∧
    jnp_array (dict_get data "beta" (JNum (of_Q 1))) = Scalar β ∧
    su_n_nodes su = n ∧
    su_nodes su = make_nodes n ∧
    su_edges su = chain_edges n ∧
    su_beta su = Scalar β ∧
    ebm_nodes (prog_model (su_program su)) = make_nodes n ∧
    prog_free_blocks (su_program su) = make_free_blocks (make_nodes n) ∧
    valid_state (Z.to_nat n) (su_init_state su).
Proof.
  unfold build. intros H.
  destruct (dict_get data "n_nodes" (JInt 5)) as [n| |] eqn:Hn; try done.
  cbn in H. inv_bind H. inv_bind H.
  rewrite make_edges_chain in H. cbn in H.
  inv_bind H. inv_bind H. inv_bind H. injection H as <-.
  apply mkIsingEBM_Return in Ha1 as (b & w & β & _ & _ & Hβ & Hb & _ & ->).
  apply mkIsingSamplingProgram_Return in Ha2 as [-> _].
  exists n, β. cbn. split_and!; try done.
  rewrite length_make_nodes in Hb. rewrite <- Hb.
  exact (hinton_init_valid _ (Build_IsingEBM [] [] b [] β) []).
Qed.



(** The beta of the model and the two keys of the run come from the [beta]
    and [random_key] fields. *)
Lemma build_Return_seed data su :
  build data = Return su →
  ∃ β z,
    dict_get data "beta" (JNum (of_Q 1)) = JNum β ∧
    dict_get data "random_key" (JInt 0) = JInt z ∧
    ebm_beta (prog_model (su_program su)) = β ∧
    su_beta su = Scalar β ∧
    su_k_samp su = sub_key (prng_key z) 2 1 ∧
    su_init_state su
    = hinton_init (sub_key (prng_key z) 2 0) (prog_model (su_program su))
        (prog_free_blocks (su_program su)).
Proof.
  unfold build. intros H.
  destruct (dict_get data "n_nodes" (JInt 5)) as [n| |] eqn:Hn; try done.
  cbn in H. inv_bind H. inv_bind H.
  rewrite make_edges_chain in H. cbn in H.
  inv_bind H. inv_bind H. inv_bind H. injection H as <-. cbn.
  apply mkIsingEBM_Return in Ha1 as (b & w & β & _ & _ & Hβ & _ & _ & ->).
  apply mkIsingSamplingProgram_Return in Ha2 as [-> _].
  unfold random_key in Ha3.
  destruct (dict_get data "random_key" (JInt 0)) as [z| |]; try done.
  cbn in Ha3. injection Ha3 as <-.
  destruct (dict_get data "beta" (JNum (of_Q 1))) as [|β'|]; try done.
  cbn in Hβ. injection Hβ as ->. by exists β, z.
Qed.
End SetupFacts.

(** ** The block partition of a chain *)

Lemma elem_of_block0 (n : nat) i :
  i ∈ slice_step2 0 (seq 0 n) ↔ i < n ∧ Nat.even i = true.
Proof.
  unfold slice_step2. rewrite drop_0, stride2_seq, Nat.sub_0_r.
  intuition lia.
Qed.

Lemma elem_of_block1 (n : nat) i :
  i ∈ slice_step2 1 (seq 0 n) ↔ i < n ∧ Nat.odd i = true.
Proof.
  unfold slice_step2. destruct n as [|n].
  - cbn. rewrite elem_of_nil. lia.
  - cbn [seq]. rewrite skipn_cons, drop_0, stride2_seq. split.
    + intros [? Hev]. split; [lia|].
      replace i with (S (i - 1)) by lia. by rewrite Nat.odd_succ.
    + intros [? Hodd]. destruct i as [|i]; [done|].
      rewrite Nat.odd_succ in Hodd. split; [lia|].
      by replace (S i - 1) with i by lia.
Qed.

(** C2. For a chain of [n_nodes] nodes, whose edges the handler builds
    between the consecutive nodes [i] and [i + 1], the two blocks of the
    handler are the even-indexed nodes and the odd-indexed nodes; together
    they hold every node exactly once, and no edge of the chain has both its
    ends in one block. *)
Theorem chain_blocks_partition (n_nodes : Z) :
  let nodes := make_nodes n_nodes in
  ∃ b0 b1 : Block,
    make_free_blocks nodes = [b0; b1] ∧
    (∀ i, i ∈ b0 ↔ i ∈ nodes ∧ Nat.even i = true) ∧
    (∀ i, i ∈ b1 ↔ i ∈ nodes ∧ Nat.odd i = true) ∧
    NoDup nodes ∧ b0 ++ b1 ≡ₚ nodes ∧
    make_edges nodes n_nodes = Return (chain_edges n_nodes) ∧
    ∀ a b, (a, b) ∈ chain_edges n_nodes →
      a ∈ nodes ∧ b ∈ nodes ∧ b = a + 1 ∧
      ¬ (a ∈ b0 ∧ b ∈ b0) ∧ ¬ (a ∈ b1 ∧ b ∈ b1).
Proof.
  intros nodes. exists (slice_step2 0 nodes), (slice_step2 1 nodes).
  subst nodes. unfold make_nodes, py_range.
  split_and!.
  - done.
  - intros i. rewrite elem_of_block0, elem_of_seq. intuition lia.
  - intros i. rewrite elem_of_block1, elem_of_seq. intuition lia.
  - apply NoDup_seq.
  - apply stride2_interleave.
  - apply make_edges_chain.
  - intros a b Hab. unfold chain_edges in Hab.
    apply list_elem_of_fmap in Hab as (i & [= -> ->] & Hi%elem_of_py_range).
    rewrite !elem_of_block0, !elem_of_block1, !elem_of_seq.
    replace (i + 1) with (S i) by lia.
    rewrite Nat.even_succ, Nat.odd_succ, <- Nat.negb_even.
    split_and!; try lia; destruct (Nat.even i); cbn; intuition congruence.
Qed.

(** ** The fields a handler reads *)

Section Stateless.
Context {num key : Type} `{!FloatOps num} `{!PRNG key num} {runtime : Runtime}.
Implicit Types (data d : gmap string (json num)).

Ltac use_agreement H :=
  unfold agree_on in H;
  repeat (apply Forall_cons in H as [? H]);
  unfold dict_get;
  repeat match goal with
         | E : ?d1 !! ?k = ?d2 !! ?k |- _ => rewrite E; clear E
         end.

Lemma build_ext d1 d2 :
  agree_on ["n_nodes"; "weights"; "biases"; "beta"; "random_key"] d1 d2 →
  build (key := key) d1 = build d2.
Proof. intros H. unfold build. use_agreement H. done. Qed.

Lemma sample_ising_ext d1 d2 :
  agree_on ising_fields d1 d2 →
  sample_ising (key := key) d1 = sample_ising d2.
Proof.
  intros H. unfold sample_ising, sample_ising_try.
  rewrite (build_ext d1 d2).
  - unfold ising_fields in H. use_agreement H. done.
  - unfold agree_on, ising_fields in *.
    repeat (apply Forall_cons in H as [? H]). repeat constructor; done.
Qed.

Lemma sample_ising_stream_ext d1 d2 :
  agree_on stream_fields d1 d2 →
  sample_ising_stream (key := key) d1 = sample_ising_stream d2.
Proof.
  intros H. unfold sample_ising_stream, sample_ising_stream_try.
  rewrite (build_ext d1 d2).
  - unfold stream_fields in H. use_agreement H. done.
  - unfold agree_on, stream_fields in *.
    repeat (apply Forall_cons in H as [? H]). repeat constructor; done.
Qed.

End Stateless.

(** ** Running a schedule *)

Section RunFacts.
Context {num key : Type} `{!FloatOps num} `{!PRNG key num} {runtime : Runtime}.
Implicit Types (data : gmap string (json num)) (su : setup num key)
  (sch : SamplingSchedule) (b : ising_body num).

Lemma run_schedule_spec n k p sch init obs l c :
  valid_state n init →
  run_schedule k p sch init obs = Return (l, c) →
  length l = Z.to_nat (sched_n_samples sch) ∧ valid_state n c.2 ∧
  Forall (λ s, ∃ s0, valid_state n s0 ∧ s = observe obs s0) l ∧
  (Z.to_nat (sched_n_samples sch) ≠ 0 → last l = Some (observe obs c.2)).
Proof.
  intros Hinit H. unfold run_schedule in H. inv_bind H.
  eapply record_samples_spec; [|exact H].
  eapply sweeps_valid; [|exact Ha]. done.
Qed.

Lemma run_schedule_total k p sch init obs :
  fields_finite (prog_model p) →
  Forall (Forall (λ i, i ∈ ebm_nodes (prog_model p))) (prog_free_blocks p) →
  valid_state (length (ebm_nodes (prog_model p))) init →
  ∃ r, run_schedule k p sch init obs = Return r.
Proof.
  intros Hfin Hblocks Hinit. unfold run_schedule.
  destruct (sweeps_total p (Z.to_nat (sched_n_warmup sch)) (k, init))
    as [c Hc]; [done..|].
  rewrite Hc. cbn. apply record_samples_total; [done..|].
  eapply sweeps_valid; [|exact Hc]. done.
Qed.

(** The setup succeeds on a body that describes a chain, with a scalar
    [beta] and an integer seed. *)
Lemma build_total data n β z :
  describes_chain data n →
  (2 ≤ n ≤ list_capacity)%Z →
  jnp_array (dict_get data "beta" (JNum (of_Q 1))) = Scalar β →
  dict_get data "random_key" (JInt 0) = JInt z →
  ∃ su, build (key := key) data = Return su.
Proof.
  intros (Hn & w & b & Hw & Hb & Hlw & Hlb) Hsize Hβ Hz. unfold build.
  rewrite Hn. cbn.
  rewrite !py_mul_fits by (unfold ssize_max; lia).
  cbn -[make_free_blocks make_nodes mkIsingEBM].
  rewrite make_edges_chain. cbn -[make_free_blocks make_nodes mkIsingEBM].
  rewrite Hw, Hb, Hβ, Hz. cbn -[make_free_blocks make_nodes mkIsingEBM].
  unfold mkIsingEBM.
  rewrite length_make_nodes, length_chain_edges, Hlw, Hlb, !Nat.eqb_refl.
  cbn -[make_free_blocks make_nodes]. unfold mkIsingSamplingProgram.
  rewrite check_free_blocks_chain by lia. cbn. by eexists.
Qed.

(** What a successful [/sample/ising] response is made of. *)
Lemma sample_ising_Http200 data b :
  sample_ising (key := key) data = Http200 b →
  ∃ su sch l c β,
    build data = Return su ∧
    mkSamplingSchedule (dict_get data "n_warmup" (JInt 100))
      (dict_get data "n_samples" (JInt 1000))
      (dict_get data "steps_per_sample" (JInt 2)) = Return sch ∧
    run_schedule (su_k_samp su) (su_program su) sch (su_init_state su)
      [su_nodes su] = Return (l, c) ∧
    su_beta su = Scalar β ∧
    b = {| samples := l; final_state := last l; n_samples := length l;
           info := {| info_n_nodes := su_n_nodes su; info_beta := β;
                      info_n_edges := length (su_edges su) |} |}.
Proof.
  unfold sample_ising, sample_ising_try, sample_states, try_except.
  intros H. case_match eqn:E; [|done]. injection H as ->.
  inv_bind E. inv_bind E. inv_bind E. inv_bind Ha1. inv_bind E.
  injection Ha1 as <-. injection E as <-.
  destruct (build_Return _ _ Ha) as (n & β & _ & _ & _ & _ & _ & Hβ & _).
  rewrite Hβ in Ha3. injection Ha3 as <-. destruct a2 as [l c].
  by exists a, a0, l, c, β.
Qed.

(** It succeeds when the setup succeeds, the schedule is accepted and no
    field overflows. *)
Lemma sample_ising_total data su sch :
  build data = Return su →
  mkSamplingSchedule (dict_get data "n_warmup" (JInt 100))
    (dict_get data "n_samples" (JInt 1000))
    (dict_get data "steps_per_sample" (JInt 2)) = Return sch →
  fields_finite (prog_model (su_program su)) →
  ∃ b, sample_ising (key := key) data = Http200 b.
Proof.
  intros Hsu Hsch Hfin.
  destruct (build_Return _ _ Hsu)
    as (n & β & _ & _ & _ & _ & _ & Hβ & Hnodes & Hblocks & Hinit).
  destruct (run_schedule_total (su_k_samp su) (su_program su) sch
              (su_init_state su) [su_nodes su]) as [r Hr]; [done|..].
  - rewrite Hblocks, Hnodes. apply free_blocks_in_nodes.
  - by rewrite Hnodes, length_make_nodes.
  - unfold sample_ising, sample_ising_try, sample_states.
    rewrite Hsu. cbn. rewrite Hsch. cbn. rewrite Hr. cbn.
    rewrite Hβ. cbn. by eexists.
Qed.
End RunFacts.

(** ** The schedule of [/sample/ising] *)

Section Schedule.
Context {num key : Type} `{!FloatOps num} `{!PRNG key num} {runtime : Runtime}.
Implicit Types (data : gmap string (json num)) (su : setup num key)
  (sch : SamplingSchedule) (b : ising_body num).

Lemma mkSamplingSchedule_Return (jw jn jt : json num) sch :
  mkSamplingSchedule jw jn jt = Return sch →
  ∃ w n t, jw = JInt w ∧ jn = JInt n ∧ jt = JInt t ∧ (0 ≤ n)%Z ∧
    sch = {| sched_n_warmup := w; sched_n_samples := n;
             sched_steps_per_sample := t |}.
Proof.
  unfold mkSamplingSchedule.
  destruct jw as [w| |], jn as [n| |], jt as [t| |]; try done. cbn.
  destruct (n <? 0)%Z eqn:Hn; [done|]. intros [= <-].
  apply Z.ltb_ge in Hn. by exists w, n, t.
Qed.

Lemma dict_get_Some data k (v dflt : json num) :
  data !! k = Some v → dict_get data k dflt = v.
Proof. unfold dict_get. by intros ->. Qed.

Lemma last_replicate_S {A} (x : A) n : last (replicate (S n) x) = Some x.
Proof. induction n as [|n IH]; [done|]. by rewrite replicate_S, last_cons, IH. Qed.

(** C4. When the request asks for [n_samples = 0], whatever its other
    fields, the response returns no recorded state: a success response holds
    the empty sequence, the count 0 and no final state, and the failure
    response holds no sample at all.  The request is served, with the
    success response, once the setup has succeeded and the warmup sweeps
    have run. *)
Theorem zero_samples_empty_output data :
  data !! "n_samples" = Some (JInt 0) →
  recorded_states (sample_ising (key := key) data) = [] ∧
  (∀ b, sample_ising (key := key) data = Http200 b →
        samples b = [] ∧ n_samples b = 0 ∧ final_state b = None) ∧
  (∀ su (w t : Z) c,
     build data = Return su →
     dict_get data "n_warmup" (JInt 100) = JInt w →
     dict_get data "steps_per_sample" (JInt 2) = JInt t →
     sweeps (su_program su) (Z.to_nat w) (su_k_samp su, su_init_state su)
       = Return c →
     ∃ b, sample_ising (key := key) data = Http200 b).
Proof.
  intros Hn.
  assert (∀ b, sample_ising (key := key) data = Http200 b →
               samples b = [] ∧ n_samples b = 0 ∧ final_state b = None) as Hok.
  { intros b E.
    apply sample_ising_Http200 in E
      as (su & sch & l & c & β & Hsu & Hsch & Hrun & _ & ->).
    rewrite (dict_get_Some _ _ _ _ Hn) in Hsch.
    apply mkSamplingSchedule_Return in Hsch
      as (w & n & t & _ & [= <-] & _ & _ & ->).
    destruct (build_Return _ _ Hsu)
      as (m & _ & _ & _ & _ & _ & _ & _ & _ & _ & Hinit).
    destruct (run_schedule_spec _ _ _ _ _ _ _ _ Hinit Hrun) as (Hlen & _).
    cbn in Hlen. destruct l; [done | discriminate]. }
  split_and!; [|exact Hok|].
  - destruct (sample_ising data) as [b|] eqn:E; [|done].
    cbn. by destruct (Hok b eq_refl).
  - intros su w t c Hsu Hw Ht Hc.
    destruct (build_Return _ _ Hsu) as (? & β & _ & _ & _ & _ & _ & Hβ & _).
    unfold sample_ising, sample_ising_try, sample_states, run_schedule.
    rewrite Hsu. cbn. rewrite Hw, (dict_get_Some _ _ _ _ Hn), Ht. cbn.
    rewrite Hc. cbn. rewrite Hβ. cbn. by eexists.
Qed.

(** C5. With [steps_per_sample = 0] and [n_samples = k > 0] the request is
    served, not rejected: once the setup has succeeded and the warmup sweeps
    have brought the chain to the joint state [c.2], the response is the
    success response whose [k] samples are all that state, which is also its
    final state. *)
Theorem zero_steps_repeat_post_warmup data (k w : Z) su c :
  data !! "steps_per_sample" = Some (JInt 0) →
  data !! "n_samples" = Some (JInt k) →
  (0 < k)%Z →
  dict_get data "n_warmup" (JInt 100) = JInt w →
  build data = Return su →
  sweeps (su_program su) (Z.to_nat w) (su_k_samp su, su_init_state su)
    = Return c →
  ∃ b, sample_ising data = Http200 b ∧
       samples b = replicate (Z.to_nat k) c.2 ∧
       n_samples b = Z.to_nat k ∧
       final_state b = Some c.2.
Proof.
  intros Ht Hn Hk Hw Hsu Hc.
  destruct (build_Return _ _ Hsu)
    as (n & β & _ & _ & _ & Hnodes & _ & Hβ & _ & _ & Hinit).
  assert (valid_state (Z.to_nat n) c.2) as [Hlen _].
  { eapply sweeps_valid; [|exact Hc]. done. }
  unfold sample_ising, sample_ising_try, sample_states, run_schedule.
  rewrite Hsu. cbn.
  rewrite Hw, (dict_get_Some _ _ _ _ Hn), (dict_get_Some _ _ _ _ Ht). cbn.
  destruct (k <? 0)%Z eqn:Hneg; [apply Z.ltb_lt in Hneg; lia|]. cbn.
  rewrite Hc. cbn. rewrite record_samples_steps0, Hnodes.
  unfold make_nodes, py_range. rewrite (observe_all _ _ Hlen). cbn.
  rewrite Hβ. cbn. eexists. split; [done|]. cbn.
  rewrite length_replicate. split_and!; [done..|].
  destruct (Z.to_nat k) as [|k'] eqn:Hk'; [lia|]. apply last_replicate_S.
Qed.

End Schedule.

(** ** The scenario, malformed weights, defaults and the stream endpoint *)

Section Endpoints.
Context {num key : Type} `{!FloatOps num} `{!PRNG key num} {runtime : Runtime}.
Implicit Types (data : gmap string (json num)) (su : setup num key)
  (sch : SamplingSchedule) (b : ising_body num).

Lemma build_scenario :
  ∃ su, build (key := key) scenario = Return su ∧
        prog_model (su_program su) = scenario_model.
Proof.
  eexists. split.
  - unfold build.
    change (dict_get scenario "n_nodes" (JInt 5)) with (JInt 3 : json num).
    cbn [as_int mbind mret result_bind result_ret].
    rewrite !py_mul_small by lia. vm_compute. reflexivity.
  - reflexivity.
Qed.

(** C8. The scenario [n_nodes=3, weights=[1.0,1.0], biases=[0,0,0],
    beta=1.0, warmup=50, samples=5, steps_per_sample=1, seed=42] is served
    with exactly 5 recorded states, each of 3 entries, each entry +1 or -1,
    in every arithmetic in which the local fields of this model are
    finite. *)
Theorem scenario_five_states :
  fields_finite scenario_model →
  ∃ b, sample_ising (key := key) scenario = Http200 b ∧
       length (samples b) = 5 ∧ n_samples b = 5 ∧
       Forall (λ s, length s = 3 ∧ Forall is_spin s) (samples b).
Proof.
  intros Hfin. destruct build_scenario as (su & Hsu & Hm).
  destruct (sample_ising_total scenario su
              {| sched_n_warmup := 50; sched_n_samples := 5;
                 sched_steps_per_sample := 1 |}) as [b Hb];
    [done | done | by rewrite Hm |].
  exists b. split; [done|].
  apply sample_ising_Http200 in Hb
    as (su' & sch & l & c & β & Hsu' & Hsch & Hrun & _ & ->).
  rewrite Hsu in Hsu'. injection Hsu' as <-.
  vm_compute in Hsch. injection Hsch as <-.
  destruct (build_Return _ _ Hsu)
    as (n & _ & Hn & _ & _ & Hnodes & _ & _ & _ & _ & Hinit).
  vm_compute in Hn. injection Hn as <-.
  destruct (run_schedule_spec _ _ _ _ _ _ _ _ Hinit Hrun) as (Hlen & _ & Hall & _).
  cbn. split_and!; [done..|].
  eapply Forall_impl; [exact Hall|]. intros s (s0 & Hs0 & ->).
  rewrite Hnodes. change (make_nodes 3) with (seq 0 3).
  rewrite observe_all; [done | apply Hs0].
Qed.

End Endpoints.

Section Defaults.
Context {num key : Type} `{!FloatOps num} `{!PRNG key num} {runtime : Runtime}.
Implicit Types (data : gmap string (json num)).

(** Reads of a body to which one field was added. *)
Ltac read_inserted Habsent :=
  unfold dict_get;
  repeat (rewrite lookup_insert_eq || rewrite lookup_insert_ne by done);
  rewrite ?Habsent; cbn [default].

Lemma build_insert_other data k (v : json num) :
  Forall (λ k', k ≠ k') ["n_nodes"; "weights"; "biases"; "beta"; "random_key"] →
  build (key := key) (<[k := v]> data) = build data.
Proof.
  intros Hk. apply build_ext. unfold agree_on.
  eapply Forall_impl; [exact Hk|]. intros k' Hk'. by apply lookup_insert_ne.
Qed.

(** C7. A numeric field that is absent takes its default.  The response
    to a body without [beta], [n_warmup], [n_samples], [steps_per_sample] or
    [random_key] is the response to the same body with the field set to 1.0,
    100, 1000, 2 or 0.  In a successful response the samples are those of the
    run whose schedule has 100 warmup sweeps, 1000 samples or 2 sweeps per
    sample where the field is absent, whose model has beta 1.0 where [beta]
    is absent, and whose keys come from the seed 0 where [random_key] is
    absent; a field that is present gives its own value to the run.  Leaving
    any of the five out of a body that describes a chain of
    two nodes or more does not fail the request: the setup succeeds and,
    when no local field of the model overflows, the response is the success
    response. *)
Theorem absent_fields_take_defaults data :
  ((data !! "beta" = None →
    sample_ising (key := key) (<["beta" := JNum (of_Q 1)]> data)
    = sample_ising data) ∧
   (data !! "n_warmup" = None →
    sample_ising (key := key) (<["n_warmup" := JInt 100]> data)
    = sample_ising data) ∧
   (data !! "n_samples" = None →
    sample_ising (key := key) (<["n_samples" := JInt 1000]> data)
    = sample_ising data) ∧
   (data !! "steps_per_sample" = None →
    sample_ising (key := key) (<["steps_per_sample" := JInt 2]> data)
    = sample_ising data) ∧
   (data !! "random_key" = None →
    sample_ising (key := key) (<["random_key" := JInt 0]> data)
    = sample_ising data)) ∧
  (∀ b, sample_ising (key := key) data = Http200 b →
   ∃ su sch c,
     build data = Return su ∧
     run_schedule (su_k_samp su) (su_program su) sch (su_init_state su)
       [su_nodes su] = Return (samples b, c) ∧
     n_samples b = Z.to_nat (sched_n_samples sch) ∧
     (data !! "n_warmup" = None → sched_n_warmup sch = 100%Z) ∧
     (data !! "n_samples" = None → sched_n_samples sch = 1000%Z) ∧
     (data !! "steps_per_sample" = None → sched_steps_per_sample sch = 2%Z) ∧
     (data !! "beta" = None →
      ebm_beta (prog_model (su_program su)) = of_Q 1 ∧
      info_beta (info b) = of_Q 1) ∧
     (data !! "random_key" = None →
      su_k_samp su = sub_key (prng_key 0) 2 1 ∧
      su_init_state su
      = hinton_init (sub_key (prng_key 0) 2 0) (prog_model (su_program su))
          (prog_free_blocks (su_program su))) ∧
     (∀ v, data !! "n_warmup" = Some v → v = JInt (sched_n_warmup sch)) ∧
     (∀ v, data !! "n_samples" = Some v → v = JInt (sched_n_samples sch)) ∧
     (∀ v, data !! "steps_per_sample" = Some v →
           v = JInt (sched_steps_per_sample sch)) ∧
     (∀ v, data !! "beta" = Some v →
           v = JNum (ebm_beta (prog_model (su_program su)))) ∧
     (∀ v, data !! "random_key" = Some v →
           ∃ z, v = JInt z ∧ su_k_samp su = sub_key (prng_key z) 2 1)) ∧
  (∀ n, describes_chain data n → (2 ≤ n ≤ list_capacity)%Z →
   (data !! "beta" = None ∨ ∃ x, data !! "beta" = Some (JNum x)) →
   (data !! "n_warmup" = None ∨ ∃ w, data !! "n_warmup" = Some (JInt w)) →
   (data !! "n_samples" = None ∨
    ∃ k, data !! "n_samples" = Some (JInt k) ∧ (0 ≤ k)%Z) →
   (data !! "steps_per_sample" = None ∨
    ∃ t, data !! "steps_per_sample" = Some (JInt t)) →
   (data !! "random_key" = None ∨ ∃ z, data !! "random_key" = Some (JInt z)) →
   ∃ su, build (key := key) data = Return su ∧
     (fields_finite (prog_model (su_program su)) →
      ∃ b, sample_ising (key := key) data = Http200 b)).
Proof.
  split_and!.
  1-5: intros Habsent; unfold sample_ising, sample_ising_try, build;
       read_inserted Habsent; done.
  - intros b Hb.
    apply sample_ising_Http200 in Hb
      as (su & sch & l & c & β & Hsu & Hsch & Hrun & Hβ & ->).
    apply mkSamplingSchedule_Return in Hsch
      as (w & n & t & Hw & Hn & Ht & _ & ->).
    destruct (build_Return _ _ Hsu)
      as (? & _ & _ & _ & _ & _ & _ & _ & _ & _ & Hinit).
    destruct (run_schedule_spec _ _ _ _ _ _ _ _ Hinit Hrun) as (Hlen & _).
    destruct (build_Return_seed _ _ Hsu)
      as (β' & z & Hβ' & Hz & Hmβ & Hsβ & Hk & Hs0).
    rewrite Hsβ in Hβ. injection Hβ as <-.
    eexists su, _, c. cbn. split_and!; [done | done | done |..].
    + intros Habsent. unfold dict_get in Hw. rewrite Habsent in Hw.
      by injection Hw.
    + intros Habsent. unfold dict_get in Hn. rewrite Habsent in Hn.
      by injection Hn.
    + intros Habsent. unfold dict_get in Ht. rewrite Habsent in Ht.
      by injection Ht.
    + intros Habsent. unfold dict_get in Hβ'. rewrite Habsent in Hβ'.
      injection Hβ' as <-. by rewrite Hmβ.
    + intros Habsent. unfold dict_get in Hz. rewrite Habsent in Hz.
      injection Hz as <-. done.
    + intros v Hv. unfold dict_get in Hw. by rewrite Hv in Hw.
    + intros v Hv. unfold dict_get in Hn. by rewrite Hv in Hn.
    + intros v Hv. unfold dict_get in Ht. by rewrite Hv in Ht.
    + intros v Hv. unfold dict_get in Hβ'. rewrite Hv in Hβ'. cbn in Hβ'.
      by rewrite Hmβ.
    + intros v Hv. unfold dict_get in Hz. rewrite Hv in Hz. cbn in Hz.
      by exists z.
  - intros n Hchain Hsize Hβ Hw Hn Ht Hz.
    assert (∃ β, jnp_array (dict_get data "beta" (JNum (of_Q 1))) = Scalar β)
      as [β Hβ'].
    { unfold dict_get. destruct Hβ as [->|[x ->]]; by eexists. }
    assert (∃ z, dict_get data "random_key" (JInt 0) = JInt z) as [z Hz'].
    { unfold dict_get. destruct Hz as [->|[z ->]]; by eexists. }
    destruct (build_total (key := key) data n β z Hchain Hsize Hβ' Hz')
      as [su Hsu].
    exists su. split; [done|]. intros Hfin.
    assert (∃ sch,
              mkSamplingSchedule (dict_get data "n_warmup" (JInt 100))
                (dict_get data "n_samples" (JInt 1000))
                (dict_get data "steps_per_sample" (JInt 2)) = Return sch)
      as [sch Hsch].
    { unfold dict_get.
      destruct Hw as [->|[w ->]], Hn as [->|(k & -> & Hk)],
        Ht as [->|[t ->]]; cbn; try by eexists.
      all: destruct (k <? 0)%Z eqn:Hneg; [apply Z.ltb_lt in Hneg; lia|];
        by eexists. }
    exact (sample_ising_total data su sch Hsu Hsch Hfin).
Qed.

(** C10. [/sample/ising/stream] does not read [n_warmup] and [n_samples]:
    setting either to any value, or removing both, leaves the response as it
    is.  Its response is the one [/sample/ising] gives for zero warmup
    sweeps and one sample, seen through its first and its last recorded
    state; on success the [sample] field and the [state] field hold the same
    state, the one recorded state. *)
Theorem stream_one_sample_no_warmup data :
  (∀ v, sample_ising_stream (key := key) (<["n_warmup" := v]> data)
        = sample_ising_stream data) ∧
  (∀ v, sample_ising_stream (key := key) (<["n_samples" := v]> data)
        = sample_ising_stream data) ∧
  sample_ising_stream (key := key) (delete "n_warmup" (delete "n_samples" data))
    = sample_ising_stream data ∧
  sample_ising_stream (key := key) data
    = stream_view
        (sample_ising (<["n_warmup" := JInt 0]> (<["n_samples" := JInt 1]> data))) ∧
  (∀ sb, sample_ising_stream (key := key) data = Http200 sb →
         ∃ s, stream_sample sb = Some s ∧ stream_state sb = Some s).
Proof.
  split_and!.
  - intros v. apply sample_ising_stream_ext. unfold agree_on, stream_fields.
    repeat constructor; by apply lookup_insert_ne.
  - intros v. apply sample_ising_stream_ext. unfold agree_on, stream_fields.
    repeat constructor; by apply lookup_insert_ne.
  - apply sample_ising_stream_ext. unfold agree_on, stream_fields.
    repeat constructor; by rewrite !lookup_delete_ne.
  - unfold sample_ising_stream, sample_ising, sample_ising_stream_try,
      sample_ising_try.
    rewrite !build_insert_other by (by repeat constructor).
    read_inserted (@eq_refl nat 0).
    destruct (build data) as [su|e] eqn:Hsu; [|done]. cbn.
    destruct (build_Return _ _ Hsu) as (? & β & _ & _ & _ & _ & _ & Hβ & _).
    destruct (default (JInt 2) (data !! "steps_per_sample")) as [t| |];
      [|done..]. cbn.
    destruct (sample_states (key := key) _ _ _ _ _ _) as [l|e]; [|done]. cbn.
    rewrite Hβ. done.
  - intros sb Hsb.
    unfold sample_ising_stream, sample_ising_stream_try, sample_states,
      try_except in Hsb.
    case_match eqn:E; [|done]. injection Hsb as ->.
    inv_bind E. inv_bind E. inv_bind E. inv_bind Ha1.
    injection Ha1 as <-. injection E as <-. destruct a2 as [l c].
    apply mkSamplingSchedule_Return in Ha0 as (? & ? & ? & _ & [= <-] & _ & _ & ->).
    destruct (build_Return _ _ Ha) as (? & ? & _ & _ & _ & _ & _ & _ & _ & _ & Hinit).
    destruct (run_schedule_spec _ _ _ _ _ _ _ _ Hinit Ha2) as (Hlen & _).
    cbn in Hlen. destruct l as [|s [|]]; try done. by exists s.
Qed.
End Defaults.

(** ** The statements on concrete request bodies *)

Import Exact.

Lemma zero_samples_empty_output_witness :
  scenario_no_samples !! "n_samples" = Some (JInt 0) ∧
  recorded_states (sample_ising (key := Z) scenario_no_samples) = [] ∧
  ∃ b, sample_ising (key := Z) scenario_no_samples = Http200 b ∧
       samples b = [] ∧ n_samples b = 0 ∧ final_state b = None.
Proof.
  split; [reflexivity|].
  destruct (zero_samples_empty_output (key := Z) scenario_no_samples eq_refl)
    as (Hrec & Hok & _).
  split; [exact Hrec|].
  destruct (sample_ising (key := Z) scenario_no_samples) as [b|e t] eqn:E.
  - exists b. split; [reflexivity | exact (Hok b eq_refl)].
  - vm_compute in E. discriminate E.
Defined.

Lemma zero_steps_repeat_post_warmup_witness :
  ∃ su c,
    build (key := Z) scenario_no_steps = Return su ∧
    sweeps (su_program su) 50 (su_k_samp su, su_init_state su) = Return c ∧
    ∃ b, sample_ising (key := Z) scenario_no_steps = Http200 b ∧
         samples b = replicate 5 c.2 ∧ n_samples b = 5 ∧
         final_state b = Some c.2.
Proof.
  eexists _, _.
  split; [vm_compute; reflexivity|].
  split; [vm_compute; reflexivity|].
  eapply (zero_steps_repeat_post_warmup (key := Z) scenario_no_steps 5 50);
    [reflexivity | reflexivity | lia | reflexivity
    | vm_compute; reflexivity | vm_compute; reflexivity].
Defined.

Lemma scenario_five_states_witness :
  fields_finite (scenario_model (num := Q)) ∧
  ∃ b, sample_ising (key := Z) scenario = Http200 b ∧
       length (samples b) = 5 ∧ n_samples b = 5 ∧
       Forall (λ s, length s = 3 ∧ Forall is_spin s) (samples b).
Proof.
  assert (fields_finite (scenario_model (num := Q))) as H
    by (intros s i _ _; reflexivity).
  split; [exact H|]. exact (scenario_five_states (key := Z) H).
Defined.


Lemma absent_fields_take_defaults_witness :
  two_nodes !! "beta" = None ∧
  sample_ising (key := Z) (<["beta" := JNum (of_Q 1)]> two_nodes)
  = sample_ising two_nodes ∧
  ∃ b, sample_ising (key := Z) two_nodes = Http200 b ∧
       n_samples b = 1000 ∧ info_beta (info b) = 1%Q.
Proof.
  destruct (absent_fields_take_defaults (key := Z) two_nodes)
    as ((Hβ & _) & Hrun & Htotal).
  split; [reflexivity|]. split; [exact (Hβ eq_refl)|].
  destruct (Htotal 2%Z) as (su & Hsu & Hok).
  { split; [reflexivity|]. exists [(1 # 2)%Q], [0%Q; 0%Q].
    repeat split; vm_compute; reflexivity. }
  { split; apply Zle_bool_imp_le; reflexivity. }
  1-5: left; reflexivity.
  destruct Hok as [b Hb]; [intros s i _ _; reflexivity|].
  exists b. split; [exact Hb|].
  destruct (Hrun b Hb)
    as (su' & sch & c & _ & _ & Hcount & _ & Hn & _ & Hbeta & _ & _).
  rewrite Hcount, (Hn eq_refl). split; [reflexivity|].
  exact (proj2 (Hbeta eq_refl)).
Defined.

Lemma stream_one_sample_no_warmup_witness :
  sample_ising_stream (key := Z) (<["n_warmup" := JInt 7]> scenario)
  = sample_ising_stream scenario ∧
  ∃ s, sample_ising_stream (key := Z) scenario
       = Http200 {| stream_sample := Some s; stream_state := Some s |}.
Proof.
  destruct (stream_one_sample_no_warmup (key := Z) scenario)
    as (Hw & _ & _ & _ & Hsame).
  split; [exact (Hw (JInt 7))|].
  destruct (sample_ising_stream (key := Z) scenario) as [sb|e t] eqn:E;
    [|vm_compute in E; discriminate E].
  destruct (Hsame sb eq_refl) as (s & Hs1 & Hs2).
  exists s. destruct sb as [x y]. cbn in Hs1, Hs2. by rewrite Hs1, Hs2.
Defined.

(** ** Further properties of the handlers *)

Section Slices.
Context {A : Type}.
Implicit Types (l : list A).

Lemma stride2_lookup l i : stride2 l !! i = l !! (2 * i).
Proof.
  revert i. induction l as [|x|x y l IH] using list_ind2; intros i.
  - done.
  - destruct i as [|i]; [done|]. cbn.
    replace (i + S (i + 0)) with (S (i + i)) by lia. done.
  - rewrite stride2_cons2. destruct i as [|i]; [done|].
    replace (2 * S i) with (S (S (2 * i))) by lia. cbn [lookup list_lookup].
    apply IH.
Qed.

Lemma length_stride2 l : length (stride2 l) = Nat.div2 (S (length l)).
Proof.
  induction l as [|x|x y l IH] using list_ind2; [done..|].
  rewrite stride2_cons2. cbn [length]. rewrite IH. done.
Qed.
End Slices.

(** X1. For every list of nodes, the first free block holds the nodes at
    the even positions and the second one the nodes at the odd positions,
    in their order: entry [i] of [nodes[::2]] is [nodes[2i]] and entry [i]
    of [nodes[1::2]] is [nodes[2i+1]]; together they are a rearrangement of
    the list. *)
Theorem free_blocks_by_position (nodes : list SpinNode) :
  ∃ b0 b1 : Block,
    make_free_blocks nodes = [b0; b1] ∧
    (∀ i, b0 !! i = nodes !! (2 * i)) ∧
    (∀ i, b1 !! i = nodes !! (2 * i + 1)) ∧
    b0 ++ b1 ≡ₚ nodes.
Proof.
  exists (slice_step2 0 nodes), (slice_step2 1 nodes). unfold slice_step2.
  split_and!; [done| | |apply stride2_interleave].
  - intros i. by rewrite drop_0, stride2_lookup.
  - intros i. rewrite stride2_lookup, lookup_drop. f_equal. lia.
Qed.

(** X2. The sizes of the two free blocks of a chain of [n_nodes] nodes: the
    first holds the larger half, the second the smaller half; the second is
    empty exactly when the chain has at most one node, and both are empty
    exactly when [n_nodes] is zero or negative. *)
Theorem free_block_sizes (n_nodes : Z) :
  ∃ b0 b1 : Block,
    make_free_blocks (make_nodes n_nodes) = [b0; b1] ∧
    Z.of_nat (length b0) = ((Z.max 0 n_nodes + 1) `div` 2)%Z ∧
    Z.of_nat (length b1) = (Z.max 0 n_nodes `div` 2)%Z ∧
    length b0 + length b1 = length (make_nodes n_nodes) ∧
    (b1 = [] ↔ n_nodes ≤ 1)%Z ∧
    (b0 = [] ↔ n_nodes ≤ 0)%Z.
Proof.
  exists (slice_step2 0 (make_nodes n_nodes)), (slice_step2 1 (make_nodes n_nodes)).
  unfold slice_step2. rewrite drop_0.
  assert (length (stride2 (make_nodes n_nodes))
          = Nat.div2 (S (Z.to_nat n_nodes))) as H0
    by (by rewrite length_stride2, length_make_nodes).
  assert (length (stride2 (drop 1 (make_nodes n_nodes)))
          = Nat.div2 (Z.to_nat n_nodes)) as H1.
  { rewrite length_stride2, length_drop, length_make_nodes.
    destruct (Z.to_nat n_nodes) as [|k]; [done|].
    by replace (S k - 1) with k by lia. }
  rewrite length_make_nodes, <- !length_zero_iff_nil, H0, H1.
  pose proof (Nat.div2_odd (Z.to_nat n_nodes)) as Hodd.
  pose proof (Nat.div2_odd (S (Z.to_nat n_nodes))) as Hodd'.
  rewrite Nat.odd_succ, <- Nat.negb_odd in Hodd'.
  destruct (Nat.odd (Z.to_nat n_nodes)); cbn [Nat.b2n negb] in Hodd, Hodd';
    revert Hodd Hodd';
    generalize (Nat.div2 (S (Z.to_nat n_nodes))) (Nat.div2 (Z.to_nat n_nodes));
    intros a b Hb Ha;
    (split_and!; [done | Z.div_mod_to_equations; lia..]).
Qed.

Section MissingAndMalformed.
Context {num key : Type} `{!FloatOps num} `{!PRNG key num} {runtime : Runtime}.
Implicit Types (data : gmap string (json num)) (su : setup num key).

Ltac read_added Habsent :=
  unfold dict_get;
  repeat (rewrite lookup_insert_eq || rewrite lookup_insert_ne by done);
  rewrite ?Habsent; cbn [default].

(** X3. A node count that is not an integer, a float or an array, makes
    both endpoints answer with the failure response of kind [TypeError],
    whatever the other fields hold: the count is used as an integer before
    any other field is looked at. *)
Theorem non_integer_n_nodes_type_error data (v : json num) :
  data !! "n_nodes" = Some v →
  (∀ z, v ≠ JInt z) →
  ∃ msg,
    sample_ising (key := key) data = Http400 msg "TypeError" ∧
    sample_ising_stream (key := key) data = Http400 msg "TypeError".
Proof.
  intros Hv Hint.
  unfold sample_ising, sample_ising_stream, sample_ising_try,
    sample_ising_stream_try, build, dict_get.
  rewrite Hv. cbn [default].
  destruct v as [z| |]; [by destruct (Hint z) |..]; cbn; eauto.
Qed.

(** X4. When the request leaves out both [weights] and [biases], the
    defaults the handler builds always fit the chain it builds, for every
    integer node count the process can hold, zero and negative counts
    included: [[0.5] * (n_nodes - 1)] has one weight per edge of the list
    comprehension and [[0.0] * n_nodes] one bias per node. *)
Theorem default_arrays_fit_chain data (n : Z) :
  dict_get data "n_nodes" (JInt 5) = JInt n →
  data !! "weights" = None →
  data !! "biases" = None →
  (- ssize_max ≤ n ≤ list_capacity)%Z →
  ∃ (w bs : list num) edges,
    py_mul (of_Q (1 # 2)) (n - 1) = Return w ∧
    py_mul (of_Q 0) n = Return bs ∧
    make_edges (make_nodes n) n = Return edges ∧
    dict_get data "weights" (JArr w) = JArr w ∧
    dict_get data "biases" (JArr bs) = JArr bs ∧
    length w = length edges ∧
    length bs = length (make_nodes n) ∧
    Z.of_nat (length edges) = Z.max 0 (n - 1) ∧
    Z.of_nat (length bs) = Z.max 0 n.
Proof.
  intros Hn Hw Hb Hsize.
  exists (py_repeat (of_Q (1 # 2)) (n - 1)), (py_repeat (of_Q 0) n),
    (chain_edges n).
  rewrite !py_mul_fits by (unfold ssize_max in *; lia).
  rewrite make_edges_chain. unfold dict_get. rewrite Hw, Hb. cbn [default].
  unfold py_repeat. rewrite !length_replicate, length_chain_edges,
    length_make_nodes.
  split_and!; try done; lia.
Qed.

(** X5. The structural fields of [/sample/ising] have defaults too: a body
    without [n_nodes] is served as a chain of 5 nodes, a body without
    [weights] as if every edge had weight 0.5, and a body without [biases]
    as if every node had bias 0.0. *)
Theorem absent_structure_takes_defaults data :
  (data !! "n_nodes" = None →
   sample_ising (key := key) (<["n_nodes" := JInt 5]> data)
   = sample_ising data) ∧
  (∀ n, dict_get data "n_nodes" (JInt 5) = JInt n →
   data !! "weights" = None →
   sample_ising (key := key)
     (<["weights" := JArr (py_repeat (of_Q (1 # 2)) (n - 1))]> data)
   = sample_ising data) ∧
  (∀ n, dict_get data "n_nodes" (JInt 5) = JInt n →
   data !! "biases" = None →
   sample_ising (key := key)
     (<["biases" := JArr (py_repeat (of_Q 0) n)]> data)
   = sample_ising data).
Proof.
  split_and!.
  - intros Habsent. unfold sample_ising, sample_ising_try, build.
    read_added Habsent. done.
  - intros n Hn Habsent. unfold sample_ising, sample_ising_try, build.
    unfold dict_get in *.
    repeat (rewrite lookup_insert_eq || rewrite lookup_insert_ne by done).
    rewrite Hn, Habsent. cbn.
    destruct (py_mul (of_Q (1 # 2)) (n - 1)) as [l|e] eqn:E; [|done].
    apply py_mul_Return in E as [-> _]. done.
  - intros n Hn Habsent. unfold sample_ising, sample_ising_try, build.
    unfold dict_get in *.
    repeat (rewrite lookup_insert_eq || rewrite lookup_insert_ne by done).
    rewrite Hn, Habsent. cbn.
    destruct (py_mul (of_Q (1 # 2)) (n - 1)) as [l|e]; [|done]. cbn.
    destruct (py_mul (of_Q 0) n) as [l'|e] eqn:E; [|done].
    apply py_mul_Return in E as [-> _]. done.
Qed.

(** X6. The defaults of [/sample/ising/stream]: a body without [n_nodes],
    [beta], [steps_per_sample] or [random_key] is served as with 5, 1.0, 2
    or 0, and a body without [weights] or [biases] as with weight 0.5 on
    every edge or bias 0.0 on every node. *)
Theorem stream_absent_fields_take_defaults data :
  (data !! "n_nodes" = None →
   sample_ising_stream (key := key) (<["n_nodes" := JInt 5]> data)
   = sample_ising_stream data) ∧
  (data !! "beta" = None →
   sample_ising_stream (key := key) (<["beta" := JNum (of_Q 1)]> data)
   = sample_ising_stream data) ∧
  (data !! "steps_per_sample" = None →
   sample_ising_stream (key := key) (<["steps_per_sample" := JInt 2]> data)
   = sample_ising_stream data) ∧
  (data !! "random_key" = None →
   sample_ising_stream (key := key) (<["random_key" := JInt 0]> data)
   = sample_ising_stream data) ∧
  (∀ n, dict_get data "n_nodes" (JInt 5) = JInt n →
   data !! "weights" = None →
   sample_ising_stream (key := key)
     (<["weights" := JArr (py_repeat (of_Q (1 # 2)) (n - 1))]> data)
   = sample_ising_stream data) ∧
  (∀ n, dict_get data "n_nodes" (JInt 5) = JInt n →
   data !! "biases" = None →
   sample_ising_stream (key := key)
     (<["biases" := JArr (py_repeat (of_Q 0) n)]> data)
   = sample_ising_stream data).
Proof.
  split_and!.
  1-4: intros Habsent;
       unfold sample_ising_stream, sample_ising_stream_try, build;
       read_added Habsent; done.
  all: intros n Hn Habsent;
       unfold sample_ising_stream, sample_ising_stream_try, build;
       unfold dict_get in *;
       repeat (rewrite lookup_insert_eq || rewrite lookup_insert_ne by done);
       rewrite Hn, Habsent; cbn.
  - destruct (py_mul (of_Q (1 # 2)) (n - 1)) as [l|e] eqn:E; [|done].
    apply py_mul_Return in E as [-> _]. done.
  - destruct (py_mul (of_Q (1 # 2)) (n - 1)) as [l|e]; [|done]. cbn.
    destruct (py_mul (of_Q 0) n) as [l'|e] eqn:E; [|done].
    apply py_mul_Return in E as [-> _]. done.
Qed.
End MissingAndMalformed.

(** ** The further properties on concrete request bodies *)

Lemma non_integer_n_nodes_type_error_witness :
  scenario_float_nodes !! "n_nodes" = Some (JNum 3%Q) ∧
  ∃ msg,
    sample_ising (key := Z) scenario_float_nodes = Http400 msg "TypeError" ∧
    sample_ising_stream (key := Z) scenario_float_nodes
    = Http400 msg "TypeError".
Proof.
  split; [reflexivity|].
  apply (non_integer_n_nodes_type_error (key := Z) scenario_float_nodes
           (JNum 3%Q)); [reflexivity | intros z Hz; discriminate Hz].
Defined.

Lemma default_arrays_fit_chain_witness :
  ∃ (w bs : list Q) edges,
    py_mul (of_Q (1 # 2)) (2 - 1) = Return w ∧
    py_mul (of_Q 0) 2 = Return bs ∧
    make_edges (make_nodes 2) 2 = Return edges ∧
    dict_get two_nodes "weights" (JArr w) = JArr w ∧
    dict_get two_nodes "biases" (JArr bs) = JArr bs ∧
    length w = length edges ∧
    length bs = length (make_nodes 2) ∧
    Z.of_nat (length edges) = Z.max 0 (2 - 1) ∧
    Z.of_nat (length bs) = Z.max 0 2.
Proof.
  apply (default_arrays_fit_chain two_nodes 2);
    [reflexivity | reflexivity | reflexivity |].
  split; apply Zle_bool_imp_le; reflexivity.
Defined.

Lemma absent_structure_takes_defaults_witness :
  two_nodes !! "weights" = None ∧
  sample_ising (key := Z)
    (<["weights" := JArr (py_repeat (of_Q (1 # 2)) (2 - 1))]> two_nodes)
  = sample_ising two_nodes.
Proof.
  destruct (absent_structure_takes_defaults (key := Z) two_nodes)
    as (_ & Hw & _).
  split; [reflexivity|]. exact (Hw 2%Z eq_refl eq_refl).
Defined.

Lemma stream_absent_fields_take_defaults_witness :
  two_nodes !! "beta" = None ∧
  sample_ising_stream (key := Z) (<["beta" := JNum (of_Q 1)]> two_nodes)
  = sample_ising_stream two_nodes.
Proof.
  destruct (stream_absent_fields_take_defaults (key := Z) two_nodes)
    as (_ & Hβ & _).
  split; [reflexivity|]. exact (Hβ eq_refl).
Defined.
